(** * better_setuptools_git_version: a shallow embedding and its properties

    The module under study derives a version string from the state of a git
    repository.  Every piece of information comes from a shell command run
    through [_get_command_output]; [get_version] combines the answers and
    [validate_version_config] stores the result in the distribution metadata.

    Modelling choices.
    - The module is written for two runtimes ([python]).  On Python 2.7
      [subprocess.check_output] returns a [str]; on Python 3 it returns
      [bytes], and nothing in the module decodes them.  A value that comes
      from a process is therefore a [text]: [Str] or [Bytes] over the same
      bytes.
    - The outside world is a [shell]: a function from the command line to the
      exit status and the captured standard output.  The queries only read
      the repository, so one [shell] stands for one repository state.
    - Python functions live in the monad [M]: they read the shell, thread a
      [state] (the distribution object and the log of commands run so far)
      and end in an [outcome] (a value or a raised exception). *)

From stdpp Require Import base strings gmap.
From Stdlib Require Import Ascii String ZArith Lia.

Local Open Scope string_scope.
Local Open Scope nat_scope.

(* Concatenation unfolds on a constructor, as any other fixpoint. *)
#[local] Arguments String.append !s1 s2 : simpl nomatch.

(** ** Text *)

(** [str.isspace] on one byte, as [str.strip()] without argument uses it:
    tab, line feed, vertical tab, form feed, carriage return and space. *)
Definition isspace (c : ascii) : bool :=
  let n := nat_of_ascii c in
  ((9 <=? n) && (n <=? 13)) || (n =? 32).

Fixpoint all_space (s : string) : bool :=
  match s with
  | EmptyString => true
  | String c r => isspace c && all_space r
  end.

Fixpoint lstrip (s : string) : string :=
  match s with
  | EmptyString => EmptyString
  | String c r => if isspace c then lstrip r else s
  end.

Fixpoint rstrip (s : string) : string :=
  match s with
  | EmptyString => EmptyString
  | String c r => if all_space s then EmptyString else String c (rstrip r)
  end.

(** [s.strip()] *)
Definition strip (s : string) : string := rstrip (lstrip s).

Definition first_char (s : string) : option ascii :=
  match s with
  | EmptyString => None
  | String c _ => Some c
  end.

Fixpoint last_char (s : string) : option ascii :=
  match s with
  | EmptyString => None
  | String c EmptyString => Some c
  | String _ r => last_char r
  end.

(** [s[:n]] for [n >= 0] *)
Fixpoint take (n : nat) (s : string) : string :=
  match n, s with
  | S k, String c r => String c (take k r)
  | _, _ => EmptyString
  end.

(** [s[n:]] for [n >= 0] *)
Fixpoint drop (n : nat) (s : string) : string :=
  match n, s with
  | S k, String _ r => drop k r
  | _, _ => s
  end.

(** [s.startswith(prefix)] *)
Fixpoint startswith (s prefix : string) {struct prefix} : bool :=
  match prefix with
  | EmptyString => true
  | String a p =>
      match s with
      | EmptyString => false
      | String b r => Ascii.eqb a b && startswith r p
      end
  end.

(** [needle in hay] for two strings: [needle] occurs in [hay]. *)
Fixpoint contains (needle hay : string) : bool :=
  startswith hay needle
  || match hay with
     | EmptyString => false
     | String _ r => contains needle r
     end.

(** The number of positions of [hay] at which [needle] occurs. *)
Fixpoint occurrences (needle hay : string) : nat :=
  (if startswith hay needle then 1 else 0)
  + match hay with
    | EmptyString => 0
    | String _ r => occurrences needle r
    end.

(** [s.endswith(suffix)] *)
Definition endswith (s suffix : string) : bool :=
  String.eqb (drop (String.length s - String.length suffix) s) suffix
  && (String.length suffix <=? String.length s).

(** ** Exceptions and outcomes *)

(** The exceptions at play.  [TypeError] carries its message, [KeyError] the
    missing key and [CalledProcessError] the exit status and the output of the
    failed process; the texts of [ValueError] and [IndexError] differ between
    interpreter versions and are left out. *)
Inductive exn : Type :=
| TypeError (msg : string)
| ValueError
| KeyError (key : string)
| IndexError
| CalledProcessError (returncode : Z) (output : string).

(** What a call ends in.  [Unmodelled] marks a format string that uses a
    feature of [str.format] outside the fragment embedded below (conversions,
    format specifications, attribute and index access, nested braces); the
    theorems say nothing about the program there. *)
Inductive outcome (A : Type) : Type :=
| Ok (a : A)
| Raise (e : exn)
| Unmodelled.

Arguments Ok {A} a.
Arguments Raise {A} e.
Arguments Unmodelled {A}.

Definition outcome_bind {A B : Type} (o : outcome A) (k : A -> outcome B) : outcome B :=
  match o with
  | Ok a => k a
  | Raise e => Raise e
  | Unmodelled => Unmodelled
  end.

Definition outcome_map {A B : Type} (f : A -> B) (o : outcome A) : outcome B :=
  outcome_bind o (fun a => Ok (f a)).

(** ** The two runtimes, [str] and [bytes] *)

Inductive python : Type :=
| Python2
| Python3.

(** A [str] or a [bytes] object, by its bytes. *)
Inductive text : Type :=
| Str (s : string)
| Bytes (s : string).

(** What [check_output] returns for the bytes a process printed. *)
Definition process_output (py : python) (s : string) : text :=
  match py with
  | Python2 => Str s
  | Python3 => Bytes s
  end.

(** [t.strip()] *)
Definition text_strip (t : text) : text :=
  match t with
  | Str s => Str (strip s)
  | Bytes s => Bytes (strip s)
  end.

(** [len(t)] *)
Definition text_len (t : text) : nat :=
  match t with
  | Str s => String.length s
  | Bytes s => String.length s
  end.

(** [t[:n]] *)
Definition text_take (n : nat) (t : text) : text :=
  match t with
  | Str s => Str (take n s)
  | Bytes s => Bytes (take n s)
  end.

(** [a == b]: a [str] and a [bytes] are never equal. *)
Definition text_eqb (a b : text) : bool :=
  match a, b with
  | Str x, Str y => String.eqb x y
  | Bytes x, Bytes y => String.eqb x y
  | _, _ => false
  end.

(** [needle in t] for a [str] needle: on [bytes] Python 3 raises. *)
Definition text_contains (needle : string) (t : text) : outcome bool :=
  match t with
  | Str s => Ok (contains needle s)
  | Bytes _ => Raise (TypeError "a bytes-like object is required, not 'str'")
  end.

Definition hexdigit (n : nat) : ascii :=
  match String.get n "0123456789abcdef" with
  | Some c => c
  | None => "0"%char
  end.

(** One byte in the [repr] of a [bytes] object delimited by [quote]. *)
Definition repr_byte (quote c : ascii) : string :=
  let n := nat_of_ascii c in
  if Ascii.eqb c quote || Ascii.eqb c "\" then String "\" (String c EmptyString)
  else if n =? 9 then "\t"
  else if n =? 10 then "\n"
  else if n =? 13 then "\r"
  else if (n <? 32) || (127 <=? n) then
    String "\" (String "x" (String (hexdigit (n / 16)) (String (hexdigit (n mod 16))
      EmptyString)))
  else String c EmptyString.

Fixpoint repr_bytes_body (quote : ascii) (s : string) : string :=
  match s with
  | EmptyString => EmptyString
  | String c r => repr_byte quote c +:+ repr_bytes_body quote r
  end.

Fixpoint has_char (c : ascii) (s : string) : bool :=
  match s with
  | EmptyString => false
  | String x r => Ascii.eqb x c || has_char c r
  end.

Definition single_quote : ascii := ascii_of_nat 39.
Definition double_quote : ascii := ascii_of_nat 34.

(** [repr(b)] for a [bytes] object: [b'...'], or [b"..."] when the bytes hold
    a single quote and no double quote. *)
Definition bytes_repr (s : string) : string :=
  let quote :=
    if has_char single_quote s && negb (has_char double_quote s) then double_quote
    else single_quote in
  String "b" (String quote (repr_bytes_body quote s +:+ String quote EmptyString)).

(** [str(t)], which is also [format(t, '')]: a [str] is itself, a [bytes]
    object is its [repr]. *)
Definition str_of (t : text) : string :=
  match t with
  | Str s => s
  | Bytes s => bytes_repr s
  end.

(** ** [str.format] with keyword arguments only

    Every call of [format] in the module passes keyword arguments and no
    positional one.  The embedding follows CPython's scanner: literal text up
    to a brace, [{{] and [}}] for a literal brace, and a replacement field
    [{name}] closed by the first [}]. *)

Definition kwargs : Type := list (string * text).

Fixpoint kwargs_get {A : Type} (name : string) (kw : list (string * A)) : option A :=
  match kw with
  | [] => None
  | (k, v) :: kw' => if String.eqb k name then Some v else kwargs_get name kw'
  end.

Definition is_digit (c : ascii) : bool :=
  let n := nat_of_ascii c in (48 <=? n) && (n <=? 57).

Fixpoint all_digits (s : string) : bool :=
  match s with
  | EmptyString => true
  | String c r => is_digit c && all_digits r
  end.

(** Characters that end the plain-name fragment of a replacement field: a
    conversion [!], a format specification [:], an attribute [.], an index
    [[], a nested [{], and any byte outside ASCII. *)
Definition beyond_plain_name (c : ascii) : bool :=
  Ascii.eqb c "!" || Ascii.eqb c ":" || Ascii.eqb c "." || Ascii.eqb c "["
  || Ascii.eqb c "{" || (128 <=? nat_of_ascii c).

(** The text of the field [name].  An empty name is the automatic index 0 and
    a name of digits is an explicit index: with no positional argument both
    raise [IndexError] (an index too long for a machine word is a
    [ValueError] on some platforms, hence not decided here).  Any other name
    is looked up among the keyword arguments, and the value found is
    formatted with an empty specification. *)
Definition get_field (name : string) (kw : kwargs) : outcome string :=
  if all_digits name then
    if String.length name <=? 9 then Raise IndexError else Unmodelled
  else
    match kwargs_get name kw with
    | Some v => Ok (str_of v)
    | None => Raise (KeyError name)
    end.

(** Where the scanner stands: in literal text, just after a [{], just after a
    [}], or inside a replacement field whose name so far is [name]. *)
Inductive scan : Type :=
| Literal
| Opened
| Closing
| Field (name : string).

Fixpoint format_scan (m : scan) (kw : kwargs) (s : string) : outcome string :=
  match s with
  | EmptyString =>
      match m with
      | Literal => Ok EmptyString
      | _ => Raise ValueError
      end
  | String c r =>
      let in_field (name : string) : outcome string :=
        if Ascii.eqb c "}" then
          outcome_bind (get_field name kw) (fun v =>
          outcome_bind (format_scan Literal kw r) (fun rest =>
          Ok (v +:+ rest)))
        else if beyond_plain_name c then Unmodelled
        else format_scan (Field (name +:+ String c EmptyString)) kw r in
      match m with
      | Literal =>
          if Ascii.eqb c "{" then format_scan Opened kw r
          else if Ascii.eqb c "}" then format_scan Closing kw r
          else outcome_map (String c) (format_scan Literal kw r)
      | Opened =>
          if Ascii.eqb c "{" then outcome_map (String "{") (format_scan Literal kw r)
          else in_field EmptyString
      | Closing =>
          if Ascii.eqb c "}" then outcome_map (String "}") (format_scan Literal kw r)
          else Raise ValueError
      | Field name => in_field name
      end
  end.

(** [template.format(k1=v1, ..., kn=vn)] for [kw = [(k1, v1); ...; (kn, vn)]] *)
Definition format (template : string) (kw : kwargs) : outcome string :=
  format_scan Literal kw template.

(** ** The world and the monad of Python calls *)

(** A command line is answered by an exit status and the captured standard
    output. *)
Definition shell : Type := string -> Z * string.

(** The distribution object handed to the hook: [dist.metadata.version] is
    [None] until something is assigned to it. *)
Record Metadata : Type := { version : option text }.
Record Distribution : Type := { metadata : Metadata }.

(** The mutable part of the world: the distribution object the hook's [dist]
    argument refers to, and the commands run so far, oldest first. *)
Record state : Type := { dist : Distribution; calls : list string }.

Definition M (A : Type) : Type := shell -> state -> outcome A * state.

Definition ret {A : Type} (a : A) : M A := fun _ st => (Ok a, st).

Definition raise {A : Type} (e : exn) : M A := fun _ st => (Raise e, st).

Definition bind {A B : Type} (c : M A) (k : A -> M B) : M B :=
  fun sh st =>
    match c sh st with
    | (Ok a, st') => k a sh st'
    | (Raise e, st') => (Raise e, st')
    | (Unmodelled, st') => (Unmodelled, st')
    end.

Definition lift {A : Type} (o : outcome A) : M A := fun _ st => (o, st).

Notation "'do' x <- c ; k" := (bind c (fun x => k))
  (at level 10, x name, c at level 100, k at level 200, only parsing).

(** [try: body / except ... as e: handler e]; [handler e = None] when no
    [except] clause matches [e]. *)
Definition try_except {A : Type} (body : M A) (handler : exn -> option (M A)) : M A :=
  fun sh st =>
    match body sh st with
    | (Raise e, st') =>
        match handler e with
        | Some h => h sh st'
        | None => (Raise e, st')
        end
    | r => r
    end.

(** [subprocess.check_output(command, shell=True)]: runs the command, and
    raises [CalledProcessError] when the exit status is not zero.  The output
    is a [str] on Python 2 and a [bytes] object on Python 3; the exception
    carries the bytes printed. *)
Definition check_output (py : python) (command : string) : M text :=
  fun sh st =>
    let (status, output) := sh command in
    let st' := {| dist := dist st; calls := calls st ++ [command] |} in
    if (status =? 0)%Z then (Ok (process_output py output), st')
    else (Raise (CalledProcessError status output), st').

(** [dist.metadata.version = v] *)
Definition set_metadata_version (v : text) : M unit :=
  fun _ st =>
    (Ok tt, {| dist := {| metadata := {| version := Some v |} |}; calls := calls st |}).

(** ** Python values a caller may pass as [config] *)

(** A mapping is taken with string keys and string values, as the two keys
    the hook reads are documented; a mapping with a value of another type is
    outside this embedding. *)
#[warnings="-register-all"]
Inductive pyobject : Type :=
| PyNone
| PyBool (b : bool)
| PyInt (z : Z)
| PyStr (s : string)
| PyList (items : list pyobject)
| PyDict (entries : gmap string string).

(** [isinstance(config, Mapping)], with the mapping when it is one. *)
Definition as_mapping (config : pyobject) : option (gmap string string) :=
  match config with
  | PyDict entries => Some entries
  | _ => None
  end.

(** [key in config] *)
Definition dict_contains (key : string) (config : gmap string string) : bool :=
  bool_decide (is_Some (config !! key)).

(** [config[key]] *)
Definition dict_getitem (config : gmap string string) (key : string) : M string :=
  match config !! key with
  | Some v => ret v
  | None => raise (KeyError key)
  end.

(** ** The module *)

Definition _get_command_output (py : python) (command : string) : M text :=
  do output <- try_except (check_output py command)
              (fun e => match e with
                        | CalledProcessError _ output => Some (ret (process_output py output))
                        | _ => None
                        end) ;
  ret (text_strip output).

Definition get_tag (py : python) : M text :=
  _get_command_output py "git tag --sort=version:refname --merged | tail -n1".

Definition get_tag_commit_sha (py : python) (tag : text) : M text :=
  do command <- lift (format "git rev-list -n 1 {tag}" [("tag", tag)]) ;
  _get_command_output py command.

Definition is_dirty (py : python) : M bool :=
  do output <- _get_command_output py "git status -s" ;
  ret (negb (text_len output =? 0)).

Definition get_head_sha (py : python) : M text :=
  _get_command_output py "git rev-parse HEAD".

Definition is_head_at_tag (py : python) (tag : text) : M bool :=
  do head <- get_head_sha py ;
  do commit <- get_tag_commit_sha py tag ;
  ret (text_eqb head commit).

Definition get_version (py : python) (template starting_version : string) : M text :=
  do tag <- get_tag py ;
  do version <-
    (if text_len tag =? 0 then ret (Str starting_version)
     else
       do at_tag <- is_head_at_tag py tag ;
       if at_tag then ret tag
       else
         do head <- get_head_sha py ;
         let sha := text_take 8 head in
         do formatted <- lift (format template [("tag", tag); ("sha", sha)]) ;
         ret (Str formatted)) ;
  do dirty <- is_dirty py ;
  if dirty then
    do holds_plus <- lift (text_contains "+" version) ;
    let separator := if holds_plus then "." else "+" in
    do formatted <- lift (format "{version}{separator}dirty"
                            [("version", version); ("separator", Str separator)]) ;
    ret (Str formatted)
  else ret version.

(** The hook.  [attr] is the second, unused argument; the result is [None]. *)
Definition validate_version_config (py : python) (attr : string) (config : pyobject)
    : M pyobject :=
  match as_mapping config with
  | None =>
      raise (TypeError
        "Config should be a dictionary with `version_format` and `starting_version` keys.")
  | Some config =>
      do starting_version <-
        (if negb (dict_contains "starting_version" config) then ret "0.1.0"
         else dict_getitem config "starting_version") ;
      do template <-
        (if negb (dict_contains "version_format" config) then ret "{tag}.dev{sha}"
         else dict_getitem config "version_format") ;
      do version <- get_version py template starting_version ;
      do _ <- set_metadata_version version ;
      ret PyNone
  end.

(** ** Views of a repository state

    What the queries read from a [shell], as plain functions: the proofs below
    go through them. *)

(** The trimmed bytes [command] prints. *)
Definition answer (sh : shell) (command : string) : string :=
  strip (snd (sh command)).

(** The state after [command] has run. *)
Definition logged (command : string) (st : state) : state :=
  {| dist := dist st; calls := calls st ++ [command] |}.

Definition tag_command : string :=
  "git tag --sort=version:refname --merged | tail -n1".

(** The command [get_tag_commit_sha] runs for the tag whose bytes are [tag]:
    on Python 3 the name is spelt as the [repr] of the bytes. *)
Definition rev_list_command (py : python) (tag : string) : string :=
  "git rev-list -n 1 " +:+ str_of (process_output py tag).

Definition tree_dirty (sh : shell) : bool :=
  negb (String.length (answer sh "git status -s") =? 0).

(** What [is_head_at_tag] answers for the newest tag. *)
Definition found_at_tag (py : python) (sh : shell) : bool :=
  String.eqb (answer sh "git rev-parse HEAD")
    (answer sh (rev_list_command py (answer sh tag_command))).

(** The version before the dirty marker is considered. *)
Definition undecorated (py : python) (template starting_version : string) (sh : shell)
    : outcome text :=
  let tag := answer sh tag_command in
  if String.length tag =? 0 then Ok (Str starting_version)
  else if found_at_tag py sh then Ok (process_output py tag)
  else
    outcome_map Str
      (format template
         [("tag", process_output py tag);
          ("sha", process_output py (take 8 (answer sh "git rev-parse HEAD")))]).

(** The commands the embedding of [get_version] logs, in order.  On a
    template outside the embedded fragment of [str.format] the list stops
    where [format] is called: it is then a prefix of what the program runs. *)
Definition commands_run (py : python) (template : string) (sh : shell) : list string :=
  let tag := answer sh tag_command in
  if String.length tag =? 0 then [tag_command; "git status -s"]
  else if found_at_tag py sh then
    [tag_command; "git rev-parse HEAD"; rev_list_command py tag; "git status -s"]
  else
    match format template
            [("tag", process_output py tag);
             ("sha", process_output py (take 8 (answer sh "git rev-parse HEAD")))] with
    | Ok _ =>
        [tag_command; "git rev-parse HEAD"; rev_list_command py tag; "git rev-parse HEAD";
         "git status -s"]
    | Raise _ =>
        [tag_command; "git rev-parse HEAD"; rev_list_command py tag; "git rev-parse HEAD"]
    | Unmodelled =>
        [tag_command; "git rev-parse HEAD"; rev_list_command py tag; "git rev-parse HEAD"]
    end.

(** ** The specification's vocabulary *)

(** The marker appended to a version when the tree is dirty: [+dirty] when the
    version holds no [+], [.dirty] when it does. *)
Definition dirty_suffix (v : string) : string :=
  if contains "+" v then ".dirty" else "+dirty".

(** A version modulo the dirty suffix. *)
Definition decorate (dirty : bool) (v : string) : string :=
  if dirty then v +:+ dirty_suffix v else v.

(** What the dirty step of [get_version] makes of [version]: the marker is
    appended to a [str]; a [bytes] version fails the test for [+]. *)
Definition mark (dirty : bool) (version : text) : outcome text :=
  if dirty then
    match version with
    | Str v => Ok (Str (v +:+ dirty_suffix v))
    | Bytes _ => Raise (TypeError "a bytes-like object is required, not 'str'")
    end
  else Ok version.

Definition is_brace (c : ascii) : bool := Ascii.eqb c "{" || Ascii.eqb c "}".

(** The template with every [{tag}] replaced by [tag] and every [{sha}] by
    [sha], read from left to right; [skip] counts the characters of a
    placeholder still to pass over. *)
Fixpoint replace_from (skip : nat) (tag sha t : string) : string :=
  match t with
  | EmptyString => EmptyString
  | String c r =>
      match skip with
      | S k => replace_from k tag sha r
      | O =>
          if startswith t "{tag}" then tag +:+ replace_from 4 tag sha r
          else if startswith t "{sha}" then sha +:+ replace_from 4 tag sha r
          else String c (replace_from 0 tag sha r)
      end
  end.

Definition replace_placeholders (tag sha template : string) : string :=
  replace_from 0 tag sha template.

(** The template's braces are those of its placeholders [{tag}] and [{sha}]
    and no other. *)
Fixpoint placeholders_from (skip : nat) (t : string) : bool :=
  match t with
  | EmptyString => true
  | String c r =>
      match skip with
      | S k => placeholders_from k r
      | O =>
          if startswith t "{tag}" || startswith t "{sha}" then placeholders_from 4 r
          else negb (is_brace c) && placeholders_from 0 r
      end
  end.

Definition placeholders_only (template : string) : bool :=
  placeholders_from 0 template.

(** The three parts of the dirty-marker invariant, on a returned version: it
    ends with a marker, it does not hold both markers, and it holds one marker
    occurrence in all. *)
Definition ends_with_marker (v : string) : bool :=
  endswith v "+dirty" || endswith v ".dirty".

Definition holds_both_markers (v : string) : bool :=
  contains "+dirty" v && contains ".dirty" v.

Definition marker_count (v : string) : nat :=
  occurrences "+dirty" v + occurrences ".dirty" v.

(** The two markers. *)
Definition is_marker (s : string) : Prop := s = "+dirty" \/ s = ".dirty".

(** ** Example repositories *)

Definition nl : string := String (ascii_of_nat 10) EmptyString.

(** A repository as git would describe it: the newest reachable tag (empty
    when there is none), the commit of HEAD, the commits of the names git can
    resolve and the lines of the status report. *)
Record repository : Type := {
  newest_tag : string;
  head_commit : string;
  tag_commits : list (string * string);
  status_report : string
}.

(** The word the shell makes of a quoted argument such as [b'v1.2.0']: the
    quotes go, what they hold stays. *)
Fixpoint unquote (s : string) : string :=
  match s with
  | EmptyString => EmptyString
  | String c r => if Ascii.eqb c single_quote then unquote r else String c (unquote r)
  end.

(** The shell of a repository.  Every line ends with a line feed, and
    [git rev-list] fails with status 128 on a name it does not know. *)
Definition git (r : repository) : shell := fun command =>
  if String.eqb command tag_command then
    (0%Z, if String.eqb (newest_tag r) "" then "" else newest_tag r +:+ nl)
  else if String.eqb command "git rev-parse HEAD" then (0%Z, head_commit r +:+ nl)
  else if String.eqb command "git status -s" then (0%Z, status_report r)
  else if startswith command "git rev-list -n 1 " then
    match kwargs_get (unquote (drop 18 command)) (tag_commits r) with
    | Some commit => (0%Z, commit +:+ nl)
    | None => (128%Z, "")
    end
  else (127%Z, "").

Definition fresh : state :=
  {| dist := {| metadata := {| version := None |} |}; calls := [] |}.

(** No tag at all. *)
Definition untagged (status : string) : repository :=
  {| newest_tag := ""; head_commit := "abcdef1234"; tag_commits := [];
     status_report := status |}.

(** HEAD is the commit tagged [v1.2.0]. *)
Definition released (status : string) : repository :=
  {| newest_tag := "v1.2.0"; head_commit := "abcdef1234";
     tag_commits := [("v1.2.0", "abcdef1234")]; status_report := status |}.

(** HEAD is the commit tagged [v1.2.0], and a second tag, [bv1.2.0], names
    the same commit; [v1.2.0] sorts last. *)
Definition released_twice (status : string) : repository :=
  {| newest_tag := "v1.2.0"; head_commit := "abcdef1234";
     tag_commits := [("v1.2.0", "abcdef1234"); ("bv1.2.0", "abcdef1234")];
     status_report := status |}.

(** HEAD [abcdef1234] is past the commit tagged [v1.2.0]. *)
Definition ahead (status : string) : repository :=
  {| newest_tag := "v1.2.0"; head_commit := "abcdef1234";
     tag_commits := [("v1.2.0", "0fedcba98765")]; status_report := status |}.

Definition modified : string := " M setup.py" +:+ nl.

(** An environment in which every command fails, with some output. *)
Definition failing : shell := fun _ => (1%Z, "  partial output " +:+ nl).

(** An environment without git: every command fails and prints nothing. *)
Definition no_git : shell := fun _ => (127%Z, "").

(** * Properties *)

(** Case analysis on every comparison of a known character with an unknown
    one. *)
Ltac split_eqb :=
  repeat match goal with
         | |- context [Ascii.eqb ?a ?c] => is_var c; destruct (Ascii.eqb a c)
         end.

(** ** Text *)

Lemma append_nil_r (s : string) : s +:+ "" = s.
Proof. induction s as [|c s IH]; simpl; [reflexivity | now rewrite IH]. Qed.

Lemma append_assoc (a b c : string) : (a +:+ b) +:+ c = a +:+ (b +:+ c).
Proof. induction a as [|x a IH]; simpl; [reflexivity | now rewrite IH]. Qed.

Lemma length_append (a b : string) :
  String.length (a +:+ b) = String.length a + String.length b.
Proof. induction a as [|x a IH]; simpl; [reflexivity | now rewrite IH]. Qed.

Lemma lstrip_split (s : string) :
  exists l, s = l +:+ lstrip s /\ all_space l = true.
Proof.
  induction s as [|c s [l [Hs Hl]]]; simpl.
  - exists ""; split; reflexivity.
  - destruct (isspace c) eqn:Hc.
    + exists (String c l); simpl; rewrite Hc, Hl; split; [now f_equal | reflexivity].
    + exists ""; split; reflexivity.
Qed.

Lemma rstrip_split (s : string) :
  exists r, s = rstrip s +:+ r /\ all_space r = true.
Proof.
  induction s as [|c s [r [Hs Hr]]].
  - exists ""; split; reflexivity.
  - cbn [rstrip]; destruct (all_space (String c s)) eqn:Hall.
    + exists (String c s); split; [reflexivity | exact Hall].
    + exists r; split; [simpl; now f_equal | exact Hr].
Qed.

Lemma lstrip_first (s : string) (c : ascii) :
  first_char (lstrip s) = Some c -> isspace c = false.
Proof.
  induction s as [|x s IH]; simpl; [discriminate |].
  destruct (isspace x) eqn:Hx; [exact IH |].
  simpl; intros [= <-]; exact Hx.
Qed.

Lemma rstrip_first (s : string) : first_char (rstrip s) = None \/ first_char (rstrip s) = first_char s.
Proof.
  destruct s as [|c s]; [now left |].
  cbn [rstrip]; destruct (all_space (String c s)); [now left | now right].
Qed.

Lemma rstrip_last (s : string) (c : ascii) :
  last_char (rstrip s) = Some c -> isspace c = false.
Proof.
  induction s as [|x s IH]; [discriminate |].
  cbn [rstrip]; destruct (all_space (String x s)) eqn:Hall; [discriminate |].
  cbn [last_char]; destruct (rstrip s) as [|y t] eqn:Hr.
  - intros [= <-].
    destruct (isspace x) eqn:Hx; [| reflexivity].
    destruct (rstrip_split s) as [r [Hs Hsp]]; rewrite Hr in Hs; simpl in Hs; subst r.
    simpl in Hall; rewrite Hx, Hsp in Hall; discriminate.
  - exact IH.
Qed.

(** [strip] removes white space from both ends and nothing else. *)
Lemma strip_spec (s : string) :
  (exists l r, s = l +:+ strip s +:+ r /\ all_space l = true /\ all_space r = true)
  /\ (forall c, first_char (strip s) = Some c -> isspace c = false)
  /\ (forall c, last_char (strip s) = Some c -> isspace c = false).
Proof.
  unfold strip; repeat split.
  - destruct (lstrip_split s) as [l [Hs Hl]].
    destruct (rstrip_split (lstrip s)) as [r [Hs' Hr]].
    exists l, r; repeat split; try assumption.
    now rewrite <- Hs', <- Hs.
  - intros c Hc; destruct (rstrip_first (lstrip s)) as [H | H]; rewrite H in Hc.
    + discriminate.
    + now apply lstrip_first with (s := s).
  - intros c; apply rstrip_last.
Qed.

Lemma startswith_append (p r : string) : startswith (p +:+ r) p = true.
Proof.
  induction p as [|c p IH]; simpl; [reflexivity |].
  now rewrite Ascii.eqb_refl, IH.
Qed.

Lemma startswith_split (s p : string) :
  startswith s p = true -> s = p +:+ drop (String.length p) s.
Proof.
  revert s; induction p as [|c p IH]; intros s; simpl.
  - now destruct s.
  - destruct s as [|x s]; [discriminate |].
    intros H; apply andb_prop in H as [Hc Hp].
    apply Ascii.eqb_eq in Hc; subst x; f_equal; now apply IH.
Qed.

Lemma drop_append (a b : string) : drop (String.length a) (a +:+ b) = b.
Proof. induction a as [|c a IH]; simpl; [now destruct b | exact IH]. Qed.

Lemma endswith_append (a b : string) : endswith (a +:+ b) b = true.
Proof.
  unfold endswith; rewrite length_append.
  replace (String.length a + String.length b - String.length b) with (String.length a) by lia.
  rewrite drop_append, String.eqb_refl; simpl.
  apply Nat.leb_le; lia.
Qed.

(** ** The queries, run *)

Lemma text_strip_output (py : python) (s : string) :
  text_strip (process_output py s) = process_output py (strip s).
Proof. now destruct py. Qed.

Lemma text_len_output (py : python) (s : string) :
  text_len (process_output py s) = String.length s.
Proof. now destruct py. Qed.

Lemma text_take_output (py : python) (n : nat) (s : string) :
  text_take n (process_output py s) = process_output py (take n s).
Proof. now destruct py. Qed.

Lemma text_eqb_output (py : python) (a b : string) :
  text_eqb (process_output py a) (process_output py b) = String.eqb a b.
Proof. now destruct py. Qed.

Lemma process_output_inj (py : python) (a b : string) :
  process_output py a = process_output py b -> a = b.
Proof. destruct py; now intros [= H]. Qed.

Lemma format_rev_list (tag : text) :
  format "git rev-list -n 1 {tag}" [("tag", tag)] = Ok ("git rev-list -n 1 " +:+ str_of tag).
Proof. cbv -[String.append str_of]; simpl; now rewrite append_nil_r. Qed.

Lemma format_dirty (version : text) (separator : string) :
  format "{version}{separator}dirty" [("version", version); ("separator", Str separator)]
  = Ok (str_of version +:+ separator +:+ "dirty").
Proof. cbv -[String.append str_of]; reflexivity. Qed.

Lemma _get_command_output_run (py : python) (command : string) (sh : shell) (st : state) :
  _get_command_output py command sh st
  = (Ok (process_output py (answer sh command)), logged command st).
Proof.
  unfold _get_command_output, bind, try_except, check_output, answer, logged, ret.
  destruct (sh command) as [status output]; simpl.
  destruct (status =? 0)%Z; now rewrite text_strip_output.
Qed.

Lemma get_tag_run (py : python) (sh : shell) (st : state) :
  get_tag py sh st = (Ok (process_output py (answer sh tag_command)), logged tag_command st).
Proof. apply _get_command_output_run. Qed.

Lemma get_head_sha_run (py : python) (sh : shell) (st : state) :
  get_head_sha py sh st
  = (Ok (process_output py (answer sh "git rev-parse HEAD")),
     logged "git rev-parse HEAD" st).
Proof. apply _get_command_output_run. Qed.

Lemma get_tag_commit_sha_run (py : python) (tag : text) (sh : shell) (st : state) :
  get_tag_commit_sha py tag sh st
  = (Ok (process_output py (answer sh ("git rev-list -n 1 " +:+ str_of tag))),
     logged ("git rev-list -n 1 " +:+ str_of tag) st).
Proof.
  unfold get_tag_commit_sha, bind, lift; rewrite format_rev_list.
  apply _get_command_output_run.
Qed.

Lemma is_dirty_run (py : python) (sh : shell) (st : state) :
  is_dirty py sh st = (Ok (tree_dirty sh), logged "git status -s" st).
Proof.
  unfold is_dirty, bind; rewrite _get_command_output_run.
  unfold ret, tree_dirty; now rewrite text_len_output.
Qed.

Lemma is_head_at_tag_run (py : python) (tag : text) (sh : shell) (st : state) :
  is_head_at_tag py tag sh st
  = (Ok (String.eqb (answer sh "git rev-parse HEAD")
           (answer sh ("git rev-list -n 1 " +:+ str_of tag))),
     logged ("git rev-list -n 1 " +:+ str_of tag) (logged "git rev-parse HEAD" st)).
Proof.
  unfold is_head_at_tag, bind.
  rewrite get_head_sha_run, get_tag_commit_sha_run.
  unfold ret; now rewrite text_eqb_output.
Qed.

Lemma logged_calls (command : string) (st : state) (done : list string) (d : Distribution) :
  logged command {| dist := d; calls := calls st ++ done |}
  = {| dist := d; calls := calls st ++ done ++ [command] |}.
Proof. unfold logged; simpl; now rewrite <- app_assoc. Qed.

Lemma logged_first (command : string) (st : state) :
  logged command st = {| dist := dist st; calls := calls st ++ [command] |}.
Proof. reflexivity. Qed.

Lemma separator_dirty (v : string) :
  v +:+ (if contains "+" v then "." else "+") +:+ "dirty" = v +:+ dirty_suffix v.
Proof. unfold dirty_suffix; now destruct (contains "+" v). Qed.

(** The whole run of [get_version]: value and state. *)
Lemma get_version_run (py : python) (template starting_version : string)
    (sh : shell) (st : state) :
  get_version py template starting_version sh st
  = (outcome_bind (undecorated py template starting_version sh) (mark (tree_dirty sh)),
     {| dist := dist st; calls := calls st ++ commands_run py template sh |}).
Proof.
  assert (Hfinish : forall (v : text) (done : list string),
            (do dirty <- is_dirty py ;
             if dirty then
               do holds_plus <- lift (text_contains "+" v) ;
               let separator := if holds_plus then "." else "+" in
               do formatted <- lift (format "{version}{separator}dirty"
                                       [("version", v); ("separator", Str separator)]) ;
               ret (Str formatted)
             else ret v) sh {| dist := dist st; calls := calls st ++ done |}
            = (mark (tree_dirty sh) v,
               {| dist := dist st; calls := calls st ++ done ++ ["git status -s"] |})).
  { intros v done; unfold bind at 1; rewrite is_dirty_run, logged_calls.
    unfold mark; destruct (tree_dirty sh); [| reflexivity].
    destruct v as [v | v]; [| reflexivity].
    unfold bind, lift, ret; cbn [text_contains].
    now rewrite format_dirty; cbn [str_of]; rewrite separator_dirty. }
  unfold undecorated, commands_run, found_at_tag, rev_list_command.
  set (tag := answer sh tag_command).
  set (head := answer sh "git rev-parse HEAD").
  unfold get_version, bind at 1.
  rewrite get_tag_run, logged_first; fold tag.
  unfold bind at 1; rewrite text_len_output.
  destruct (String.length tag =? 0).
  - unfold ret at 1.
    exact (Hfinish (Str starting_version) [tag_command]).
  - unfold bind at 1; rewrite is_head_at_tag_run; fold head.
    rewrite !logged_calls; cbn [app].
    destruct (String.eqb head _).
    + unfold ret at 1.
      exact (Hfinish (process_output py tag)
               [tag_command; "git rev-parse HEAD";
                "git rev-list -n 1 " +:+ str_of (process_output py tag)]).
    + unfold bind at 1; rewrite get_head_sha_run, logged_calls; cbn [app]; fold head.
      rewrite text_take_output.
      unfold bind at 1, lift at 1.
      destruct (format template _) as [v | e |]; try reflexivity.
      unfold ret at 1; cbn [outcome_map outcome_bind].
      exact (Hfinish (Str v)
               [tag_command; "git rev-parse HEAD";
                "git rev-list -n 1 " +:+ str_of (process_output py tag);
                "git rev-parse HEAD"]).
Qed.

(** The value of [get_version], read off the repository state. *)
Lemma get_version_value (py : python) (template starting_version : string)
    (sh : shell) (st : state) :
  fst (get_version py template starting_version sh st)
  = outcome_bind (undecorated py template starting_version sh) (mark (tree_dirty sh)).
Proof. now rewrite get_version_run. Qed.

(** The state [get_version] leaves. *)
Lemma get_version_state (py : python) (template starting_version : string)
    (sh : shell) (st : state) :
  snd (get_version py template starting_version sh st)
  = {| dist := dist st; calls := calls st ++ commands_run py template sh |}.
Proof. now rewrite get_version_run. Qed.

(** ** The scenarios of the specification, run *)

(** No tag, clean tree. *)
Example scenario_A (py : python) :
  fst (get_version py "{tag}.dev{sha}" "0.1.0" (git (untagged "")) fresh)
  = Ok (Str "0.1.0").
Proof. now destruct py. Qed.

(** Tag [v1.2.0] at HEAD, clean tree, on Python 2. *)
Example scenario_B :
  fst (get_version Python2 "{tag}.dev{sha}" "0.1.0" (git (released "")) fresh)
  = Ok (Str "v1.2.0").
Proof. reflexivity. Qed.

(** Tag [v1.2.0] behind HEAD, dirty tree, on Python 2: the value, and the
    commands run. *)
Example scenario_C :
  get_version Python2 "{tag}.dev{sha}" "0.1.0" (git (ahead modified)) fresh
  = (Ok (Str "v1.2.0.devabcdef12+dirty"),
     {| dist := dist fresh;
        calls := ["git tag --sort=version:refname --merged | tail -n1";
                  "git rev-parse HEAD";
                  "git rev-list -n 1 v1.2.0";
                  "git rev-parse HEAD";
                  "git status -s"] |}).
Proof. reflexivity. Qed.

(** A list as [config]. *)
Example scenario_D (py : python) :
  fst (validate_version_config py "version_config" (PyList []) (git (ahead modified)) fresh)
  = Raise (TypeError
      "Config should be a dictionary with `version_format` and `starting_version` keys.").
Proof. reflexivity. Qed.

(** A mapping with a template of its own: the version lands in the metadata. *)
Example hook_on_mapping :
  let config := PyDict (<["version_format" := "{tag}+{sha}"]> ∅) in
  let (result, st) :=
    validate_version_config Python2 "version_config" config (git (ahead modified)) fresh in
  result = Ok PyNone
  /\ version (metadata (dist st)) = Some (Str "v1.2.0+abcdef12.dirty").
Proof. vm_compute. split; reflexivity. Qed.

(** [format] beyond the two placeholders: a doubled brace is a brace, and a
    field that is no keyword raises [KeyError]. *)
Example format_escapes_and_missing_keys :
  format "{{tag}}" [("tag", Str "v1.2.0"); ("sha", Str "abcdef12")] = Ok "{tag}"
  /\ format "{tag}.{branch}" [("tag", Str "v1.2.0"); ("sha", Str "abcdef12")]
     = Raise (KeyError "branch")
  /\ format "{tag}.dev{sha}" [("tag", Bytes "v1.2.0"); ("sha", Bytes "abcdef12")]
     = Ok "b'v1.2.0'.devb'abcdef12'".
Proof. repeat split; reflexivity. Qed.

(** ** Helpers *)

Lemma Ok_inj {A : Type} (a b : A) : Ok a = Ok b -> a = b.
Proof. now intros [= H]. Qed.

Lemma answer_of_output (py : python) (command : string) (sh sh' : shell) (st st' : state) :
  fst (_get_command_output py command sh st) = fst (_get_command_output py command sh' st') ->
  answer sh command = answer sh' command.
Proof.
  rewrite !_get_command_output_run; cbn [fst].
  intros H%Ok_inj; exact (process_output_inj _ _ _ H).
Qed.

(** [undecorated] reads the shell through [answer] only, and never through the
    status report. *)
Lemma undecorated_ext (py : python) (template starting_version : string) (sh sh' : shell) :
  (forall command, command <> "git status -s" -> answer sh command = answer sh' command) ->
  undecorated py template starting_version sh = undecorated py template starting_version sh'.
Proof.
  intros H; unfold undecorated, found_at_tag, rev_list_command.
  rewrite (H tag_command) by discriminate.
  rewrite (H "git rev-parse HEAD") by discriminate.
  set (tag := answer sh' tag_command).
  rewrite (H ("git rev-list -n 1 " +:+ str_of (process_output py tag)))
    by (simpl; discriminate).
  reflexivity.
Qed.

Lemma commands_run_ext (py : python) (template : string) (sh sh' : shell) :
  (forall command, command <> "git status -s" -> answer sh command = answer sh' command) ->
  commands_run py template sh = commands_run py template sh'.
Proof.
  intros H; unfold commands_run, found_at_tag, rev_list_command.
  rewrite (H tag_command) by discriminate.
  rewrite (H "git rev-parse HEAD") by discriminate.
  set (tag := answer sh' tag_command).
  rewrite (H ("git rev-list -n 1 " +:+ str_of (process_output py tag)))
    by (simpl; discriminate).
  reflexivity.
Qed.

Lemma git_same_but_status (tag head status status' : string) (commits : list (string * string))
    (command : string) :
  command <> "git status -s" ->
  git {| newest_tag := tag; head_commit := head; tag_commits := commits;
         status_report := status |} command
  = git {| newest_tag := tag; head_commit := head; tag_commits := commits;
           status_report := status' |} command.
Proof.
  intros Hc; unfold git; simpl.
  destruct (String.eqb command tag_command); [reflexivity |].
  destruct (String.eqb command "git rev-parse HEAD"); [reflexivity |].
  destruct (String.eqb_spec command "git status -s"); [contradiction | reflexivity].
Qed.

Lemma length_zero (s : string) : (String.length s =? 0) = true <-> s = "".
Proof. destruct s; simpl; split; (reflexivity || discriminate). Qed.

Lemma length_nonzero (s : string) : s <> "" -> (String.length s =? 0) = false.
Proof. destruct s; [contradiction | reflexivity]. Qed.

Lemma output_nonempty (py : python) (s : string) :
  text_len (process_output py s) <> 0 -> s <> "".
Proof. rewrite text_len_output; intros H ->; now apply H. Qed.

(** ** The dirty marker *)

(** C1 (code bug).  The dirty-suffix law fails on Python 3 when the version
    is the tag: the tag is a [bytes] object there, and the test for [+] on it
    raises [TypeError] where the clean tree gives a version.  The repository
    has HEAD at the newest tag [v1.2.0] and another tag [bv1.2.0] at the same
    commit, the name Python 3 hands to [git rev-list] being [b'v1.2.0']. *)
Theorem dirty_bytes_version_raises :
  fst (get_tag Python3 (git (released_twice modified)) fresh) = Ok (Bytes "v1.2.0")
  /\ fst (is_head_at_tag Python3 (Bytes "v1.2.0") (git (released_twice modified)) fresh)
     = Ok true
  /\ fst (is_dirty Python3 (git (released_twice modified)) fresh) = Ok true
  /\ fst (is_dirty Python3 (git (released_twice "")) fresh) = Ok false
  /\ fst (get_version Python3 "{tag}.dev{sha}" "0.1.0" (git (released_twice "")) fresh)
     = Ok (Bytes "v1.2.0")
  /\ fst (get_version Python3 "{tag}.dev{sha}" "0.1.0" (git (released_twice modified)) fresh)
     = Raise (TypeError "a bytes-like object is required, not 'str'").
Proof. repeat split; reflexivity. Qed.

(** ** The three cases of [get_version] *)

(** C2.  With no tag ([get_tag] returns the empty string), [get_version]
    returns [starting_version], with the dirty marker appended when the tree
    is dirty, whatever the template and on both runtimes. *)
Theorem no_tag_gives_starting_version (py : python) (template starting_version : string)
    (sh : shell) (st : state) (dirty : bool) :
  fst (get_tag py sh st) = Ok (process_output py "") ->
  fst (is_dirty py sh st) = Ok dirty ->
  fst (get_version py template starting_version sh st)
  = Ok (Str (if dirty
             then starting_version
                  +:+ (if contains "+" starting_version then ".dirty" else "+dirty")
             else starting_version)).
Proof.
  rewrite get_tag_run, is_dirty_run; cbn [fst].
  intros Htag%Ok_inj%process_output_inj Hdirty%Ok_inj.
  rewrite get_version_value; unfold undecorated.
  rewrite Htag, Hdirty; cbn [String.length Nat.eqb outcome_bind mark].
  now destruct dirty.
Qed.

Lemma no_tag_gives_starting_version_witness :
  fst (get_version Python3 "{tag}.dev{sha}" "0.1.0" (git (untagged modified)) fresh)
  = Ok (Str "0.1.0+dirty").
Proof.
  exact (no_tag_gives_starting_version Python3 "{tag}.dev{sha}" "0.1.0"
           (git (untagged modified)) fresh true eq_refl eq_refl).
Defined.

(** C3 (code bug).  On Python 3, with HEAD at the newest tag [v1.2.0] and a
    clean tree, [get_version] does not return the tag: the tag is a [bytes]
    object, [git rev-list] is asked about [b'v1.2.0'], fails, and the version
    is the template filled with the [repr] of the bytes.  On Python 2 the
    same repository gives [v1.2.0]. *)
Theorem python3_misses_head_at_tag :
  answer (git (released "")) tag_command = "v1.2.0"
  /\ answer (git (released "")) "git rev-parse HEAD" = "abcdef1234"
  /\ answer (git (released "")) "git rev-list -n 1 v1.2.0" = "abcdef1234"
  /\ fst (is_dirty Python3 (git (released "")) fresh) = Ok false
  /\ get_version Python3 "{tag}.dev{sha}" "0.1.0" (git (released "")) fresh
     = (Ok (Str "b'v1.2.0'.devb'abcdef12'"),
        {| dist := dist fresh;
           calls := ["git tag --sort=version:refname --merged | tail -n1";
                     "git rev-parse HEAD";
                     "git rev-list -n 1 b'v1.2.0'";
                     "git rev-parse HEAD";
                     "git status -s"] |})
  /\ fst (get_version Python2 "{tag}.dev{sha}" "0.1.0" (git (released "")) fresh)
     = Ok (Str "v1.2.0").
Proof. repeat split; reflexivity. Qed.

(** On a template whose braces are those of [{tag}] and [{sha}] only,
    [format] is the replacement of the two placeholders by the text of the
    two values. *)
Lemma format_placeholders (tag sha : text) (n : nat) :
  forall t : string,
    String.length t <= n ->
    placeholders_from 0 t = true ->
    format_scan Literal [("tag", tag); ("sha", sha)] t
    = Ok (replace_from 0 (str_of tag) (str_of sha) t).
Proof.
  induction n as [|n IH]; intros t Hlen Hp.
  - destruct t; [reflexivity | simpl in Hlen; lia].
  - destruct (startswith t "{tag}") eqn:Etag; [| destruct (startswith t "{sha}") eqn:Esha].
    + apply startswith_split in Etag.
      remember (drop (String.length "{tag}") t) as r eqn:Hr; clear Hr; subst t.
      simpl in Hlen, Hp |- *.
      rewrite IH by (assumption || lia); reflexivity.
    + apply startswith_split in Esha.
      remember (drop (String.length "{sha}") t) as r eqn:Hr; clear Hr; subst t.
      simpl in Hlen, Hp |- *.
      rewrite IH by (assumption || lia); reflexivity.
    + destruct t as [|c r]; [reflexivity |].
      cbn [placeholders_from] in Hp; rewrite Etag, Esha in Hp; cbn [orb] in Hp.
      apply andb_prop in Hp as [Hc Hp].
      unfold is_brace in Hc; apply negb_true_iff, orb_false_elim in Hc as [Ho Hcl].
      cbn [replace_from]; rewrite Etag, Esha.
      cbn [format_scan]; rewrite Ho, Hcl.
      simpl in Hlen; rewrite IH by (assumption || lia); reflexivity.
Qed.

Lemma format_replaces_placeholders (tag sha : text) (template : string) :
  placeholders_only template = true ->
  format template [("tag", tag); ("sha", sha)]
  = Ok (replace_placeholders (str_of tag) (str_of sha) template).
Proof. intros H; now apply (format_placeholders tag sha (String.length template)). Qed.

(** C4 (code bug).  On Python 3, with the tag [v1.2.0] away from HEAD
    [abcdef1234], the default template and a dirty tree, [get_version] returns
    [b'v1.2.0'.devb'abcdef12'+dirty]: the placeholders are filled with the
    [repr] of the [bytes] the queries return, not with the tag and the first
    8 characters of the commit.  On Python 2 the same repository gives
    [v1.2.0.devabcdef12+dirty]. *)
Theorem python3_fills_template_with_repr :
  fst (get_tag Python3 (git (ahead modified)) fresh) = Ok (Bytes "v1.2.0")
  /\ fst (get_head_sha Python3 (git (ahead modified)) fresh) = Ok (Bytes "abcdef1234")
  /\ fst (is_head_at_tag Python3 (Bytes "v1.2.0") (git (ahead modified)) fresh) = Ok false
  /\ fst (is_dirty Python3 (git (ahead modified)) fresh) = Ok true
  /\ fst (get_version Python3 "{tag}.dev{sha}" "0.1.0" (git (ahead modified)) fresh)
     = Ok (Str "b'v1.2.0'.devb'abcdef12'+dirty")
  /\ fst (get_version Python2 "{tag}.dev{sha}" "0.1.0" (git (ahead modified)) fresh)
     = Ok (Str "v1.2.0.devabcdef12+dirty").
Proof. repeat split; reflexivity. Qed.

(** C8.  [get_version] is deterministic: two calls with the same arguments
    that get the same result from every external query return the same
    outcome, whatever the program states they start in. *)
Theorem get_version_deterministic (py : python) (template starting_version : string)
    (sh sh' : shell) (st st' : state) :
  (forall command,
     fst (_get_command_output py command sh st)
     = fst (_get_command_output py command sh' st')) ->
  fst (get_version py template starting_version sh st)
  = fst (get_version py template starting_version sh' st').
Proof.
  intros Hsame.
  assert (Hans : forall command, answer sh command = answer sh' command)
    by (intros command; exact (answer_of_output _ _ _ _ _ _ (Hsame command))).
  rewrite !get_version_value.
  rewrite (undecorated_ext _ _ _ sh sh') by (intros c _; apply Hans).
  unfold tree_dirty; now rewrite Hans.
Qed.

(** Two calls in a row against one repository: the second starts in the state
    the first one leaves. *)
Lemma get_version_deterministic_witness :
  fst (get_version Python2 "{tag}.dev{sha}" "0.1.0" (git (ahead modified)) fresh)
  = fst (get_version Python2 "{tag}.dev{sha}" "0.1.0" (git (ahead modified))
           (snd (get_version Python2 "{tag}.dev{sha}" "0.1.0" (git (ahead modified)) fresh))).
Proof.
  apply get_version_deterministic.
  intros command; rewrite !_get_command_output_run; reflexivity.
Defined.

(** ** Failing commands *)

(** C5.  A command that exits with a status other than zero raises nothing:
    [_get_command_output] returns the output of the process, whatever the
    status, trimmed of the white space around it.  The five queries are this
    wrapper applied to their command, so none of them raises. *)
Theorem command_output_ignores_exit_status (py : python) (sh : shell) (command : string)
    (st : state) (status : Z) (output : string) :
  sh command = (status, output) ->
  fst (_get_command_output py command sh st) = Ok (process_output py (strip output))
  /\ (exists l r,
        output = l +:+ strip output +:+ r /\ all_space l = true /\ all_space r = true)
  /\ (forall c, first_char (strip output) = Some c -> isspace c = false)
  /\ (forall c, last_char (strip output) = Some c -> isspace c = false)
  /\ fst (get_tag py sh st)
     = Ok (process_output py
             (strip (snd (sh "git tag --sort=version:refname --merged | tail -n1"))))
  /\ fst (get_head_sha py sh st)
     = Ok (process_output py (strip (snd (sh "git rev-parse HEAD"))))
  /\ (forall tag,
        fst (get_tag_commit_sha py tag sh st)
        = Ok (process_output py (strip (snd (sh ("git rev-list -n 1 " +:+ str_of tag))))))
  /\ fst (is_dirty py sh st)
     = Ok (negb (String.length (strip (snd (sh "git status -s"))) =? 0))
  /\ (forall tag,
        fst (is_head_at_tag py tag sh st)
        = Ok (String.eqb (strip (snd (sh "git rev-parse HEAD")))
                (strip (snd (sh ("git rev-list -n 1 " +:+ str_of tag)))))).
Proof.
  intros Hrun.
  destruct (strip_spec output) as [Hsplit [Hfirst Hlast]].
  split; [| split; [exact Hsplit | split; [exact Hfirst | split; [exact Hlast |]]]].
  - rewrite _get_command_output_run; unfold answer; now rewrite Hrun.
  - rewrite get_tag_run, get_head_sha_run, is_dirty_run.
    repeat split; trivial; intros tag.
    + now rewrite get_tag_commit_sha_run.
    + now rewrite is_head_at_tag_run.
Qed.

Lemma command_output_ignores_exit_status_witness :
  fst (_get_command_output Python3 "git status -s" failing fresh)
  = Ok (Bytes "partial output").
Proof.
  exact (proj1 (command_output_ignores_exit_status Python3 failing "git status -s" fresh
                  1%Z ("  partial output " +:+ nl) eq_refl)).
Defined.

(** ** The hook *)

(** [d if key not in config else config[key]] is the lookup with a default. *)
Lemma config_lookup (key fallback : string) (config : gmap string string) :
  (if negb (dict_contains key config) then ret fallback else dict_getitem config key)
  = ret (match config !! key with
         | Some v => v
         | None => fallback
         end).
Proof.
  unfold dict_contains, dict_getitem.
  destruct (config !! key) as [v |] eqn:Hk.
  - rewrite bool_decide_eq_true_2 by (now exists v); reflexivity.
  - rewrite bool_decide_eq_false_2 by (intros [v Hv]; discriminate); reflexivity.
Qed.

(** What the hook does with a mapping, step by step. *)
Lemma validate_version_config_run (py : python) (attr : string)
    (entries : gmap string string) (sh : shell) (st : state) :
  validate_version_config py attr (PyDict entries) sh st
  = match get_version py
            (match entries !! "version_format" with
             | Some v => v
             | None => "{tag}.dev{sha}"
             end)
            (match entries !! "starting_version" with
             | Some v => v
             | None => "0.1.0"
             end) sh st with
    | (Ok v, st') =>
        (Ok PyNone,
         {| dist := {| metadata := {| version := Some v |} |}; calls := calls st' |})
    | (Raise e, st') => (Raise e, st')
    | (Unmodelled, st') => (Unmodelled, st')
    end.
Proof.
  unfold validate_version_config; cbn [as_mapping].
  rewrite !config_lookup.
  unfold bind at 1, ret at 1; unfold bind at 1, ret at 1; unfold bind at 1.
  destruct (get_version _ _ _ sh st) as [[v | e |] st']; reflexivity.
Qed.

(** [str.format] raises [ValueError], [IndexError] or [KeyError] and nothing
    else. *)
Lemma format_scan_raises (kw : kwargs) (s : string) :
  forall (m : scan) (e : exn),
    format_scan m kw s = Raise e ->
    e = ValueError \/ e = IndexError \/ exists key, e = KeyError key.
Proof.
  induction s as [|c r IH]; intros m e.
  - destruct m; simpl; intros [= <-]; auto; discriminate.
  - assert (Hfield : forall name,
      (if Ascii.eqb c "}" then
         outcome_bind (get_field name kw) (fun v =>
         outcome_bind (format_scan Literal kw r) (fun rest => Ok (v +:+ rest)))
       else if beyond_plain_name c then Unmodelled
       else format_scan (Field (name +:+ String c EmptyString)) kw r) = Raise e ->
      e = ValueError \/ e = IndexError \/ exists key, e = KeyError key).
    { intros name; destruct (Ascii.eqb c "}").
      - unfold get_field.
        destruct (all_digits name).
        + destruct (String.length name <=? 9); simpl; [intros [= <-]; auto | discriminate].
        + destruct (kwargs_get name kw); simpl.
          * destruct (format_scan Literal kw r) eqn:Hr; simpl; try discriminate.
            intros [= <-]; now apply (IH Literal).
          * intros [= <-]; eauto.
      - destruct (beyond_plain_name c); [discriminate | apply IH]. }
    cbn [format_scan]; destruct m.
    + destruct (Ascii.eqb c "{"); [apply IH |].
      destruct (Ascii.eqb c "}"); [apply IH |].
      destruct (format_scan Literal kw r) eqn:Hr; simpl; try discriminate.
      intros [= <-]; now apply (IH Literal).
    + destruct (Ascii.eqb c "{"); [| apply Hfield].
      destruct (format_scan Literal kw r) eqn:Hr; simpl; try discriminate.
      intros [= <-]; now apply (IH Literal).
    + destruct (Ascii.eqb c "}"); [| intros [= <-]; auto].
      destruct (format_scan Literal kw r) eqn:Hr; simpl; try discriminate.
      intros [= <-]; now apply (IH Literal).
    + apply Hfield.
Qed.

(** What [get_version] can raise: an exception of [format], or the
    [TypeError] of the test for [+] on a [bytes] version. *)
Lemma get_version_raises (py : python) (template starting_version : string)
    (sh : shell) (st : state) (e : exn) :
  fst (get_version py template starting_version sh st) = Raise e ->
  e = ValueError \/ e = IndexError \/ (exists key, e = KeyError key)
  \/ e = TypeError "a bytes-like object is required, not 'str'".
Proof.
  rewrite get_version_value; unfold undecorated, mark.
  destruct (String.length _ =? 0).
  { cbn [outcome_bind]; destruct (tree_dirty sh); discriminate. }
  destruct (found_at_tag py sh).
  { cbn [outcome_bind]; destruct (tree_dirty sh); [| discriminate].
    destruct (process_output py _); [discriminate |].
    intros [= <-]; auto. }
  destruct (format template _) eqn:Hf; cbn [outcome_map outcome_bind]; try discriminate.
  - destruct (tree_dirty sh); discriminate.
  - intros [= <-].
    destruct (format_scan_raises _ _ _ _ Hf) as [H | [H | H]]; auto.
Qed.

(** C6.  A [config] that is not a mapping (a list, a string, a number,
    [None]) makes the hook raise [TypeError] with the fixed message; a
    [config] that is a mapping never makes it raise that error. *)
Theorem config_must_be_a_mapping (py : python) (attr : string) (config : pyobject)
    (sh : shell) (st : state) :
  match config with
  | PyDict _ =>
      fst (validate_version_config py attr config sh st)
      <> Raise (TypeError
           "Config should be a dictionary with `version_format` and `starting_version` keys.")
  | _ =>
      fst (validate_version_config py attr config sh st)
      = Raise (TypeError
          "Config should be a dictionary with `version_format` and `starting_version` keys.")
  end.
Proof.
  destruct config as [| b | z | s | items | entries]; try reflexivity.
  rewrite validate_version_config_run.
  destruct (get_version _ _ _ sh st) as [[v | e |] st'] eqn:Hrun; cbn [fst]; try discriminate.
  intros [= ->].
  apply (f_equal fst) in Hrun; cbn [fst] in Hrun.
  apply get_version_raises in Hrun as [H | [H | [[key H] | H]]]; discriminate.
Qed.

(** C7.  With a mapping, the hook calls [get_version] with the template
    [config["version_format"]] when the key is present and [{tag}.dev{sha}]
    when it is not, and the starting version [config["starting_version"]] when
    the key is present and [0.1.0] when it is not; the value returned becomes
    [dist.metadata.version], the commands run are those of [get_version], and
    the hook returns [None].  An exception of [get_version] passes through and
    nothing is assigned. *)
Theorem hook_assigns_version (py : python) (attr : string) (entries : gmap string string)
    (sh : shell) (st : state) :
  validate_version_config py attr (PyDict entries) sh st
  = match get_version py
            (match entries !! "version_format" with
             | Some v => v
             | None => "{tag}.dev{sha}"
             end)
            (match entries !! "starting_version" with
             | Some v => v
             | None => "0.1.0"
             end) sh st with
    | (Ok v, st') =>
        (Ok PyNone,
         {| dist := {| metadata := {| version := Some v |} |}; calls := calls st' |})
    | (Raise e, st') => (Raise e, st')
    | (Unmodelled, st') => (Unmodelled, st')
    end.
Proof. apply validate_version_config_run. Qed.

(** C10.  The hook checks [config] first: when it is not a mapping the hook
    raises the [TypeError] in the state it was called in, so no command has
    run and [dist.metadata.version] is what it was. *)
Theorem invalid_config_changes_nothing (py : python) (attr : string) (config : pyobject)
    (sh : shell) (st : state) :
  as_mapping config = None ->
  validate_version_config py attr config sh st
  = (Raise (TypeError
       "Config should be a dictionary with `version_format` and `starting_version` keys."),
     st).
Proof.
  intros Hnot; unfold validate_version_config; rewrite Hnot; reflexivity.
Qed.

Lemma invalid_config_changes_nothing_witness :
  validate_version_config Python3 "version_config" (PyList [PyStr "0.1.0"])
    (git (ahead modified)) fresh
  = (Raise (TypeError
       "Config should be a dictionary with `version_format` and `starting_version` keys."),
     fresh).
Proof.
  exact (invalid_config_changes_nothing Python3 "version_config" (PyList [PyStr "0.1.0"])
           (git (ahead modified)) fresh eq_refl).
Defined.

(** ** Counting dirty markers *)

(** A marker cannot start inside [x] and end inside a marker appended to
    [x]: past its first character a marker holds neither [+] nor [.]. *)
Lemma marker_at_seam (p s x : string) :
  is_marker p -> is_marker s -> x <> "" ->
  startswith (x +:+ s) p = startswith x p.
Proof.
  intros [-> | ->] [-> | ->] Hx;
    (destruct x as [|c0 [|c1 [|c2 [|c3 [|c4 [|c5 x]]]]]]; [contradiction | ..];
     simpl; split_eqb; reflexivity).
Qed.

Lemma occurrences_append_marker (p s v : string) :
  is_marker p -> is_marker s ->
  occurrences p (v +:+ s) = occurrences p v + occurrences p s.
Proof.
  intros Hp Hs; induction v as [|c v IH].
  - destruct Hp as [-> | ->]; reflexivity.
  - change (String c v +:+ s) with (String c (v +:+ s)).
    cbn [occurrences].
    change (String c (v +:+ s)) with (String c v +:+ s).
    rewrite (marker_at_seam p s (String c v)) by (assumption || discriminate).
    rewrite IH; lia.
Qed.

Lemma occurrences_none (p v : string) : contains p v = false -> occurrences p v = 0.
Proof.
  induction v as [|c v IH]; cbn [contains occurrences]; intros H.
  - apply orb_false_elim in H as [H _]; now rewrite H.
  - apply orb_false_elim in H as [H Hv]; rewrite H, IH by assumption; reflexivity.
Qed.

Lemma contains_occurrences (p v : string) : contains p v = negb (occurrences p v =? 0).
Proof.
  induction v as [|c v IH]; cbn [contains occurrences].
  - destruct (startswith "" p); reflexivity.
  - rewrite IH; destruct (startswith (String c v) p); simpl; [reflexivity |].
    reflexivity.
Qed.

(** A version without marker, once the marker is appended, holds one marker,
    one time. *)
Lemma one_marker_after_append (base : string) :
  contains "+dirty" base = false ->
  contains ".dirty" base = false ->
  holds_both_markers (base +:+ dirty_suffix base) = false
  /\ marker_count (base +:+ dirty_suffix base) = 1.
Proof.
  intros Hplus%occurrences_none Hdot%occurrences_none.
  unfold holds_both_markers, marker_count, dirty_suffix.
  destruct (contains "+" base);
    rewrite !contains_occurrences;
    rewrite !occurrences_append_marker by (first [now left | now right]);
    rewrite Hplus, Hdot; split; reflexivity.
Qed.

Lemma ends_with_marker_after_append (base : string) :
  ends_with_marker (base +:+ dirty_suffix base) = true.
Proof.
  unfold ends_with_marker, dirty_suffix.
  destruct (contains "+" base); rewrite endswith_append;
    [apply orb_true_r | reflexivity].
Qed.

(** C9 (amended).  When the tree is dirty, the version [get_version] returns
    is the clean-case version with one marker appended, so it ends with
    [+dirty] or [.dirty]; when the clean-case version holds neither [+dirty]
    nor [.dirty], the returned version does not hold both markers and holds
    one marker occurrence in all.  The clean case is any repository state that
    answers every command but [git status -s] as the dirty one does. *)
Theorem dirty_version_ends_with_one_marker (py : python) (template starting_version : string)
    (dirty_sh clean_sh : shell) (st st' : state) (v : text) :
  (forall command, command <> "git status -s" -> dirty_sh command = clean_sh command) ->
  fst (is_dirty py dirty_sh st) = Ok true ->
  fst (is_dirty py clean_sh st') = Ok false ->
  fst (get_version py template starting_version dirty_sh st) = Ok v ->
  exists version,
    v = Str version
    /\ ends_with_marker version = true
    /\ exists clean,
         fst (get_version py template starting_version clean_sh st') = Ok (Str clean)
         /\ version = clean +:+ (if contains "+" clean then ".dirty" else "+dirty")
         /\ (contains "+dirty" clean = false ->
             contains ".dirty" clean = false ->
             holds_both_markers version = false /\ marker_count version = 1).
Proof.
  intros Hsame Hdirty Hclean.
  rewrite is_dirty_run in Hdirty; rewrite is_dirty_run in Hclean.
  cbn [fst] in Hdirty, Hclean; apply Ok_inj in Hdirty, Hclean.
  rewrite !get_version_value, Hdirty, Hclean.
  rewrite (undecorated_ext _ _ _ dirty_sh clean_sh)
    by (intros c Hc; unfold answer; now rewrite Hsame).
  destruct (undecorated py template starting_version clean_sh) as [[clean | b] | e |];
    cbn [outcome_bind mark]; try discriminate.
  intros Hv%Ok_inj; subst v.
  exists (clean +:+ dirty_suffix clean); split; [reflexivity |]; split.
  - apply ends_with_marker_after_append.
  - exists clean; repeat split; try reflexivity.
    + now apply one_marker_after_append.
    + now apply one_marker_after_append.
Qed.

Lemma dirty_version_ends_with_one_marker_witness :
  exists version,
    Str "v1.2.0.devabcdef12+dirty" = Str version
    /\ ends_with_marker version = true
    /\ exists clean,
         fst (get_version Python2 "{tag}.dev{sha}" "0.1.0" (git (ahead "")) fresh)
         = Ok (Str clean)
         /\ version = clean +:+ (if contains "+" clean then ".dirty" else "+dirty")
         /\ (contains "+dirty" clean = false ->
             contains ".dirty" clean = false ->
             holds_both_markers version = false /\ marker_count version = 1).
Proof.
  apply (dirty_version_ends_with_one_marker Python2 "{tag}.dev{sha}" "0.1.0"
           (git (ahead modified)) (git (ahead "")) fresh fresh).
  - intros command; apply git_same_but_status.
  - reflexivity.
  - reflexivity.
  - reflexivity.
Defined.

(** C9 as stated fails when the version already holds a marker before the
    dirty one is appended.  With no tag and a dirty tree, on either runtime,
    the starting version [0.1.0+dirty] comes back as [0.1.0+dirty.dirty],
    which holds both markers, and the starting version [0.1.0+x.dirty] comes
    back as [0.1.0+x.dirty.dirty], which holds [.dirty] twice. *)
Lemma marker_is_appended_to_marked_version :
  fst (is_dirty Python2 (git (untagged modified)) fresh) = Ok true
  /\ fst (get_version Python2 "{tag}.dev{sha}" "0.1.0+dirty" (git (untagged modified)) fresh)
     = Ok (Str "0.1.0+dirty.dirty")
  /\ fst (get_version Python3 "{tag}.dev{sha}" "0.1.0+dirty" (git (untagged modified)) fresh)
     = Ok (Str "0.1.0+dirty.dirty")
  /\ holds_both_markers "0.1.0+dirty.dirty" = true
  /\ marker_count "0.1.0+dirty.dirty" = 2
  /\ fst (get_version Python2 "{tag}.dev{sha}" "0.1.0+x.dirty" (git (untagged modified))
            fresh)
     = Ok (Str "0.1.0+x.dirty.dirty")
  /\ fst (get_version Python3 "{tag}.dev{sha}" "0.1.0+x.dirty" (git (untagged modified))
            fresh)
     = Ok (Str "0.1.0+x.dirty.dirty")
  /\ occurrences ".dirty" "0.1.0+x.dirty.dirty" = 2.
Proof. repeat split; reflexivity. Qed.

(** * Further properties of the module *)

(** ** White space only *)

Lemma lstrip_all_space (s : string) : all_space s = true -> lstrip s = "".
Proof.
  induction s as [|c s IH]; simpl; [reflexivity |].
  intros H; apply andb_prop in H as [Hc Hs]; rewrite Hc; now apply IH.
Qed.

Lemma lstrip_not_all_space (s : string) :
  all_space s = false -> all_space (lstrip s) = false.
Proof.
  induction s as [|c s IH]; simpl; [discriminate |].
  destruct (isspace c) eqn:Hc; simpl; [exact IH |].
  intros _; now rewrite Hc.
Qed.

Lemma rstrip_empty (s : string) : rstrip s = "" -> all_space s = true.
Proof.
  destruct s as [|c s]; [reflexivity |].
  cbn [rstrip]; destruct (all_space (String c s)); [reflexivity | discriminate].
Qed.

Lemma strip_empty (s : string) : strip s = "" <-> all_space s = true.
Proof.
  unfold strip; split.
  - intros H%rstrip_empty.
    destruct (all_space s) eqn:Hs; [reflexivity |].
    apply lstrip_not_all_space in Hs; congruence.
  - intros H; now rewrite lstrip_all_space.
Qed.

Lemma answer_blank (sh : shell) (command : string) :
  all_space (snd (sh command)) = true -> answer sh command = "".
Proof. intros H; now apply strip_empty. Qed.

(** X1.  [is_dirty] answers [False] exactly when the status report holds
    nothing but white space (nothing at all, or blank lines), whatever the
    exit status of the command and on both runtimes. *)
Theorem is_dirty_false_iff_blank_status (py : python) (sh : shell) (st : state) :
  fst (is_dirty py sh st) = Ok false <-> all_space (snd (sh "git status -s")) = true.
Proof.
  rewrite is_dirty_run; cbn [fst]; unfold tree_dirty, answer.
  rewrite <- strip_empty, <- length_zero.
  destruct (String.length _ =? 0); simpl; split; intros H; congruence.
Qed.

(** X2.  [get_tag] answers the empty string, the sign of a repository without
    tag, exactly when the tag listing holds nothing but white space, whatever
    the exit status of the command and on both runtimes. *)
Theorem get_tag_empty_iff_blank_listing (py : python) (sh : shell) (st : state) :
  fst (get_tag py sh st) = Ok (process_output py "")
  <-> all_space (snd (sh "git tag --sort=version:refname --merged | tail -n1")) = true.
Proof.
  rewrite get_tag_run; cbn [fst]; unfold answer, tag_command.
  rewrite <- strip_empty; split.
  - intros H%Ok_inj; exact (process_output_inj _ _ _ H).
  - now intros ->.
Qed.

(** ** The commands [get_version] runs *)

(** X3.  [get_version] never touches the distribution object, and the commands
    it runs are a function of the repository state: the tag listing first;
    with a tag, [git rev-parse HEAD] and [git rev-list -n 1] on the text of
    the tag (on Python 3 the [repr] of its bytes); when these two disagree,
    [git rev-parse HEAD] a second time; and [git status -s] last, unless
    [format] raised on the template, in which case the status is never asked
    for.  This for a template within the embedded fragment of [str.format]:
    literal text, doubled braces and fields that are a plain name. *)
Theorem get_version_commands (py : python) (template starting_version : string)
    (sh : shell) (st : state) :
  let tag := strip (snd (sh "git tag --sort=version:refname --merged | tail -n1")) in
  let head := strip (snd (sh "git rev-parse HEAD")) in
  let rev_list := "git rev-list -n 1 " +:+ str_of (process_output py tag) in
  let filled :=
    format template
      [("tag", process_output py tag); ("sha", process_output py (take 8 head))] in
  filled <> Unmodelled ->
  snd (get_version py template starting_version sh st)
  = {| dist := dist st;
       calls :=
         calls st
         ++ (if String.length tag =? 0 then
               ["git tag --sort=version:refname --merged | tail -n1"; "git status -s"]
             else if String.eqb head (strip (snd (sh rev_list))) then
               ["git tag --sort=version:refname --merged | tail -n1";
                "git rev-parse HEAD"; rev_list; "git status -s"]
             else
               match filled with
               | Ok _ =>
                   ["git tag --sort=version:refname --merged | tail -n1";
                    "git rev-parse HEAD"; rev_list; "git rev-parse HEAD"; "git status -s"]
               | _ =>
                   ["git tag --sort=version:refname --merged | tail -n1";
                    "git rev-parse HEAD"; rev_list; "git rev-parse HEAD"]
               end) |}.
Proof.
  intros tag head rev_list filled _.
  rewrite get_version_state; unfold commands_run, found_at_tag, rev_list_command.
  fold tag_command; change (answer sh tag_command) with tag.
  change (answer sh "git rev-parse HEAD") with head.
  fold rev_list filled.
  destruct (String.length tag =? 0); [reflexivity |].
  destruct (String.eqb head _); [reflexivity |].
  now destruct filled.
Qed.

Lemma get_version_commands_witness :
  snd (get_version Python3 "{tag}.dev{sha}" "0.1.0" (git (ahead modified)) fresh)
  = {| dist := dist fresh;
       calls := ["git tag --sort=version:refname --merged | tail -n1";
                 "git rev-parse HEAD";
                 "git rev-list -n 1 b'v1.2.0'";
                 "git rev-parse HEAD";
                 "git status -s"] |}.
Proof.
  apply (get_version_commands Python3 "{tag}.dev{sha}" "0.1.0" (git (ahead modified)) fresh).
  discriminate.
Defined.

(** X4.  A broken environment degrades without a sound: when every command
    prints nothing but white space, whatever its exit status, [get_version]
    returns the starting version as it is, for every template, after the tag
    listing and the status report and no other command. *)
Theorem silent_environment_gives_starting_version (py : python)
    (template starting_version : string) (sh : shell) (st : state) :
  (forall command, all_space (snd (sh command)) = true) ->
  get_version py template starting_version sh st
  = (Ok (Str starting_version),
     {| dist := dist st;
        calls := calls st ++ ["git tag --sort=version:refname --merged | tail -n1";
                              "git status -s"] |}).
Proof.
  intros Hblank; rewrite get_version_run.
  unfold undecorated, commands_run, tree_dirty.
  rewrite !answer_blank by apply Hblank; reflexivity.
Qed.

Lemma silent_environment_gives_starting_version_witness :
  get_version Python3 "{tag}.dev{sha}" "0.1.0" no_git fresh
  = (Ok (Str "0.1.0"),
     {| dist := dist fresh;
        calls := calls fresh ++ ["git tag --sort=version:refname --merged | tail -n1";
                                 "git status -s"] |}).
Proof.
  apply silent_environment_gives_starting_version.
  intros command; reflexivity.
Defined.

(** ** Where [get_version] raises *)

Lemma found_at_tag_run (py : python) (sh : shell) (st : state) :
  fst (is_head_at_tag py (process_output py (answer sh tag_command)) sh st)
  = Ok (found_at_tag py sh).
Proof. now rewrite is_head_at_tag_run. Qed.



(** What a template of placeholders alone leaves possible. *)
Lemma get_version_plain_template (py : python) (template starting_version : string)
    (sh : shell) (st : state) :
  placeholders_only template = true ->
  (exists v, fst (get_version py template starting_version sh st) = Ok v)
  \/ (py = Python3
      /\ fst (get_version py template starting_version sh st)
         = Raise (TypeError "a bytes-like object is required, not 'str'")
      /\ fst (is_dirty py sh st) = Ok true
      /\ exists tag,
           fst (get_tag py sh st) = Ok tag
           /\ text_len tag <> 0
           /\ fst (is_head_at_tag py tag sh st) = Ok true).
Proof.
  intros Hplain; rewrite get_version_value, is_dirty_run; unfold undecorated, mark.
  destruct (String.length (answer sh tag_command) =? 0) eqn:Hlen.
  { left; cbn [outcome_bind]; destruct (tree_dirty sh); eexists; reflexivity. }
  destruct (found_at_tag py sh) eqn:Hat.
  - cbn [outcome_bind]; destruct (tree_dirty sh); [| left; eexists; reflexivity].
    destruct py; cbn [process_output]; [left; eexists; reflexivity |].
    right; repeat split.
    exists (Bytes (answer sh tag_command)).
    rewrite get_tag_run; cbn [fst process_output]; repeat split.
    + cbn [text_len]; intros H; rewrite H in Hlen; discriminate.
    + rewrite <- Hat; exact (found_at_tag_run Python3 sh st).
  - left; rewrite format_replaces_placeholders by assumption.
    cbn [outcome_map outcome_bind]; destruct (tree_dirty sh); eexists; reflexivity.
Qed.



(** ** A dirty version is a local version *)

Lemma contains_of_startswith (p x : string) : startswith x p = true -> contains p x = true.
Proof. intros H; destruct x; simpl; now rewrite H. Qed.

Lemma startswith_append_l (p : string) :
  forall a b : string, startswith a p = true -> startswith (a +:+ b) p = true.
Proof.
  induction p as [|c p IH]; intros a b; [reflexivity |].
  destruct a as [|x a]; simpl; [discriminate |].
  intros H; apply andb_prop in H as [Hc Hp].
  now rewrite Hc, IH.
Qed.

Lemma contains_append_l (p a b : string) :
  contains p a = true -> contains p (a +:+ b) = true.
Proof.
  induction a as [|c a IH]; cbn [contains]; intros H.
  - apply orb_prop in H as [H | H]; [| discriminate].
    apply contains_of_startswith, startswith_append_l, H.
  - apply orb_prop in H as [H | H].
    + apply contains_of_startswith, startswith_append_l, H.
    + simpl; rewrite IH by assumption; apply orb_true_r.
Qed.

Lemma contains_append_r (p a b : string) :
  contains p b = true -> contains p (a +:+ b) = true.
Proof.
  intros H; induction a as [|c a IH]; simpl; [exact H |].
  rewrite IH; apply orb_true_r.
Qed.

(** X7.  Whatever the template, the starting version and the tag, the version
    returned for a dirty tree is a [str] that holds a [+]: either the version
    held one already, or the marker [+dirty] brought it. *)
Theorem dirty_version_holds_plus (py : python) (template starting_version : string)
    (sh : shell) (st : state) (v : text) :
  fst (is_dirty py sh st) = Ok true ->
  fst (get_version py template starting_version sh st) = Ok v ->
  exists version, v = Str version /\ contains "+" version = true.
Proof.
  rewrite is_dirty_run, get_version_value; cbn [fst]; intros Hdirty%Ok_inj.
  rewrite Hdirty.
  destruct (undecorated py template starting_version sh) as [[base | b] | e |];
    cbn [outcome_bind mark]; try discriminate.
  intros Hv%Ok_inj; subst v; eexists; split; [reflexivity |].
  unfold dirty_suffix.
  destruct (contains "+" base) eqn:Hbase.
  - now apply contains_append_l.
  - now apply contains_append_r.
Qed.

Lemma dirty_version_holds_plus_witness :
  exists version,
    Str "b'v1.2.0'.devb'abcdef12'+dirty" = Str version /\ contains "+" version = true.
Proof.
  exact (dirty_version_holds_plus Python3 "{tag}.dev{sha}" "0.1.0" (git (ahead modified))
           fresh (Str "b'v1.2.0'.devb'abcdef12'+dirty") eq_refl eq_refl).
Defined.

(** ** Which argument counts *)

(** X8.  As soon as the repository has a tag, the starting version plays no
    part: two calls that differ in it alone end in the same value and the
    same state. *)
Theorem starting_version_unused_with_tag (py : python)
    (template starting_version starting_version' : string)
    (sh : shell) (st : state) (tag : text) :
  fst (get_tag py sh st) = Ok tag ->
  text_len tag <> 0 ->
  get_version py template starting_version sh st
  = get_version py template starting_version' sh st.
Proof.
  rewrite get_tag_run; cbn [fst]; intros Htag%Ok_inj Hne.
  subst tag; rewrite text_len_output in Hne.
  rewrite !get_version_run; unfold undecorated.
  now destruct (String.length (answer sh tag_command)).
Qed.

Lemma starting_version_unused_with_tag_witness :
  get_version Python2 "{tag}.dev{sha}" "0.1.0" (git (ahead modified)) fresh
  = get_version Python2 "{tag}.dev{sha}" "9.9.9" (git (ahead modified)) fresh.
Proof.
  apply (starting_version_unused_with_tag _ _ _ _ _ _ (Str "v1.2.0"));
    [reflexivity | discriminate].
Defined.

(** X9.  The template is read only after [is_head_at_tag] has answered
    [False] for the newest tag: with no tag, or with a tag that
    [is_head_at_tag] finds at HEAD, two calls that differ in the template
    alone end in the same value and the same state, so a malformed template
    goes unnoticed there. *)
Theorem template_unused_unless_ahead (py : python)
    (template template' starting_version : string)
    (sh : shell) (st : state) (tag : text) :
  fst (get_tag py sh st) = Ok tag ->
  text_len tag = 0 \/ fst (is_head_at_tag py tag sh st) = Ok true ->
  get_version py template starting_version sh st
  = get_version py template' starting_version sh st.
Proof.
  rewrite get_tag_run; cbn [fst]; intros Htag%Ok_inj Hcase; subst tag.
  rewrite found_at_tag_run, text_len_output in Hcase.
  rewrite !get_version_run; unfold undecorated, commands_run.
  destruct Hcase as [-> | Hat%Ok_inj]; [reflexivity |].
  rewrite Hat; now destruct (String.length _ =? 0).
Qed.

(** The malformed template [{] on a repository with HEAD at the tag. *)
Lemma template_unused_unless_ahead_witness :
  fst (get_version Python2 "{" "0.1.0" (git (released modified)) fresh)
  = Ok (Str "v1.2.0+dirty").
Proof.
  rewrite (template_unused_unless_ahead Python2 "{" "{tag}.dev{sha}" "0.1.0"
             (git (released modified)) fresh (Str "v1.2.0") eq_refl (or_intror eq_refl)).
  reflexivity.
Defined.

(** ** More on the hook *)

(** X10.  The hook assigns the version or nothing: whenever it raises, be it
    the [TypeError] of a [config] that is no mapping or an exception of
    [get_version] after the commands have run, the distribution object is as
    it was. *)
Theorem hook_error_keeps_metadata (py : python) (attr : string) (config : pyobject)
    (sh : shell) (st : state) (e : exn) :
  fst (validate_version_config py attr config sh st) = Raise e ->
  dist (snd (validate_version_config py attr config sh st)) = dist st.
Proof.
  destruct config as [| b | z | s | items | entries]; try reflexivity.
  rewrite validate_version_config_run, get_version_run.
  destruct (outcome_bind _ _); simpl; [discriminate | reflexivity | reflexivity].
Qed.

Lemma hook_error_keeps_metadata_witness :
  dist (snd (validate_version_config Python2 "version_config"
               (PyDict (<["version_format" := "{tag}.{branch}"]> ∅))
               (git (ahead modified)) fresh))
  = dist fresh.
Proof.
  exact (hook_error_keeps_metadata Python2 "version_config"
           (PyDict (<["version_format" := "{tag}.{branch}"]> ∅))
           (git (ahead modified)) fresh (KeyError "branch") eq_refl).
Defined.

(** X11.  The hook reads the keys [starting_version] and [version_format] and
    nothing else: two mappings that agree on these two keys give the same
    result and the same state, whatever other keys they hold and whatever the
    second argument of the hook is.  A misspelt key is not reported; the
    default stands in for it. *)
Theorem hook_reads_two_keys_only (py : python) (attr attr' : string)
    (entries entries' : gmap string string) (sh : shell) (st : state) :
  entries !! "starting_version" = entries' !! "starting_version" ->
  entries !! "version_format" = entries' !! "version_format" ->
  validate_version_config py attr (PyDict entries) sh st
  = validate_version_config py attr' (PyDict entries') sh st.
Proof.
  intros Hstart Hformat; rewrite !validate_version_config_run.
  now rewrite Hstart, Hformat.
Qed.

Lemma hook_reads_two_keys_only_witness :
  validate_version_config Python2 "version_config"
    (PyDict (<["version_fromat" := "{tag}+{sha}"]> ∅)) (git (ahead modified)) fresh
  = validate_version_config Python2 "other" (PyDict ∅) (git (ahead modified)) fresh.
Proof. apply hook_reads_two_keys_only; reflexivity. Defined.

(** X12.  With a mapping of strings whose template, given or default, has no
    other brace than those of [{tag}] and [{sha}], the hook returns [None] and
    [dist.metadata.version] holds the version [get_version] returns, whatever
    it held before; this in every repository state on Python 2, and on
    Python 3 in every state but the one where [get_version] raises the
    [TypeError] of a [bytes] version, which the hook passes on with nothing
    assigned. *)
Theorem hook_sets_version (py : python) (attr : string) (entries : gmap string string)
    (sh : shell) (st : state) :
  let template := match entries !! "version_format" with
                  | Some v => v
                  | None => "{tag}.dev{sha}"
                  end in
  let starting_version := match entries !! "starting_version" with
                          | Some v => v
                          | None => "0.1.0"
                          end in
  placeholders_only template = true ->
  (exists v,
     fst (get_version py template starting_version sh st) = Ok v
     /\ fst (validate_version_config py attr (PyDict entries) sh st) = Ok PyNone
     /\ version (metadata (dist (snd (validate_version_config py attr (PyDict entries)
                                        sh st))))
        = Some v)
  \/ (py = Python3
      /\ fst (get_version py template starting_version sh st)
         = Raise (TypeError "a bytes-like object is required, not 'str'")
      /\ fst (validate_version_config py attr (PyDict entries) sh st)
         = Raise (TypeError "a bytes-like object is required, not 'str'")
      /\ dist (snd (validate_version_config py attr (PyDict entries) sh st)) = dist st).
Proof.
  intros template starting_version Hplain.
  rewrite validate_version_config_run; fold template starting_version.
  destruct (get_version_plain_template py template starting_version sh st Hplain)
    as [[v Hv] | [Hpy [Hraise _]]].
  - left; exists v; split; [exact Hv |].
    destruct (get_version py template starting_version sh st) as [o st'].
    cbn [fst] in Hv; subst o; split; reflexivity.
  - right; split; [exact Hpy |]; split; [exact Hraise |].
    pose proof (get_version_state py template starting_version sh st) as Hst.
    destruct (get_version py template starting_version sh st) as [o st'].
    cbn [fst snd] in Hraise, Hst; subst o st'; split; reflexivity.
Qed.

Lemma hook_sets_version_witness :
  exists v,
    fst (get_version Python2 "{tag}+{sha}" "0.1.0" (git (ahead modified)) fresh) = Ok v
    /\ fst (validate_version_config Python2 "version_config"
              (PyDict (<["version_format" := "{tag}+{sha}"]> ∅))
              (git (ahead modified)) fresh) = Ok PyNone
    /\ version (metadata (dist (snd (validate_version_config Python2 "version_config"
                  (PyDict (<["version_format" := "{tag}+{sha}"]> ∅))
                  (git (ahead modified)) fresh))))
       = Some v.
Proof.
  pose proof (hook_sets_version Python2 "version_config"
                (<["version_format" := "{tag}+{sha}"]> ∅) (git (ahead modified)) fresh)
    as Hhook.
  destruct Hhook as [H | [H _]]; [reflexivity | exact H | discriminate H].
Defined.

(** ** The three cases of [get_version], on both runtimes *)

(** X13.  The dirty-suffix law, where the version is a [str]: when the call
    on the clean tree returns the [str] [clean], the call on the dirty tree
    returns [clean] with one marker appended, [.dirty] when [clean] holds a
    [+] and [+dirty] when it does not.  The clean case is any repository state
    that answers every command but [git status -s] as the dirty one does. *)
Theorem dirty_suffix_law (py : python) (template starting_version : string)
    (dirty_sh clean_sh : shell) (st st' : state) (clean : string) :
  (forall command, command <> "git status -s" -> dirty_sh command = clean_sh command) ->
  fst (is_dirty py dirty_sh st) = Ok true ->
  fst (is_dirty py clean_sh st') = Ok false ->
  fst (get_version py template starting_version clean_sh st') = Ok (Str clean) ->
  fst (get_version py template starting_version dirty_sh st)
  = Ok (Str (clean +:+ (if contains "+" clean then ".dirty" else "+dirty"))).
Proof.
  intros Hsame Hdirty Hclean.
  rewrite is_dirty_run in Hdirty; rewrite is_dirty_run in Hclean.
  cbn [fst] in Hdirty, Hclean; apply Ok_inj in Hdirty, Hclean.
  rewrite !get_version_value, Hdirty, Hclean.
  rewrite (undecorated_ext _ _ _ dirty_sh clean_sh)
    by (intros c Hc; unfold answer; now rewrite Hsame).
  destruct (undecorated py template starting_version clean_sh) as [v | e |];
    cbn [outcome_bind mark]; try discriminate.
  now intros [= ->].
Qed.

Lemma dirty_suffix_law_witness :
  fst (get_version Python2 "{tag}+{sha}" "0.1.0" (git (ahead modified)) fresh)
  = Ok (Str "v1.2.0+abcdef12.dirty").
Proof.
  apply (dirty_suffix_law Python2 "{tag}+{sha}" "0.1.0" (git (ahead modified))
           (git (ahead "")) fresh fresh "v1.2.0+abcdef12").
  - intros command; apply git_same_but_status.
  - reflexivity.
  - reflexivity.
  - reflexivity.
Defined.

(** X14.  When [get_tag] returns a non-empty tag and [get_head_sha] differs
    from [get_tag_commit_sha] of that tag, [get_version] returns the template
    with [{tag}] replaced by the text of the tag and [{sha}] by the text of
    the first 8 bytes of HEAD's commit, with the dirty marker appended when
    the tree is dirty.  On Python 2 the text of a value is the value; on
    Python 3 it is the [repr] of the bytes, [b'...'].  This for every
    template whose braces are those of the placeholders [{tag}] and [{sha}]
    and no other. *)
Theorem ahead_of_tag_fills_template (py : python) (template starting_version : string)
    (sh : shell) (st : state) (tag head commit : text) (dirty : bool) :
  placeholders_only template = true ->
  fst (get_tag py sh st) = Ok tag ->
  text_len tag <> 0 ->
  fst (get_head_sha py sh st) = Ok head ->
  fst (get_tag_commit_sha py tag sh st) = Ok commit ->
  head <> commit ->
  fst (is_dirty py sh st) = Ok dirty ->
  fst (get_version py template starting_version sh st)
  = Ok (Str (decorate dirty
               (replace_placeholders (str_of tag) (str_of (text_take 8 head)) template))).
Proof.
  rewrite get_tag_run, get_head_sha_run, is_dirty_run; cbn [fst].
  intros Hplain Htag%Ok_inj Hne Hhead%Ok_inj; subst tag head.
  rewrite get_tag_commit_sha_run; cbn [fst].
  intros Hcommit%Ok_inj Hdiff Hdirty%Ok_inj; subst commit dirty.
  rewrite text_len_output in Hne.
  rewrite get_version_value; unfold undecorated, found_at_tag, rev_list_command.
  rewrite length_nonzero by (intros H; rewrite H in Hne; now apply Hne).
  destruct (String.eqb_spec (answer sh "git rev-parse HEAD")
              (answer sh ("git rev-list -n 1 "
                          +:+ str_of (process_output py (answer sh tag_command)))))
    as [Heq | _]; [now rewrite Heq in Hdiff |].
  rewrite format_replaces_placeholders, text_take_output by assumption.
  cbn [outcome_map outcome_bind]; unfold mark, decorate.
  now destruct (tree_dirty sh).
Qed.

Lemma ahead_of_tag_fills_template_witness :
  fst (get_version Python2 "{tag}.dev{sha}" "0.1.0" (git (ahead modified)) fresh)
  = Ok (Str "v1.2.0.devabcdef12+dirty").
Proof.
  apply (ahead_of_tag_fills_template Python2 "{tag}.dev{sha}" "0.1.0"
           (git (ahead modified)) fresh
           (Str "v1.2.0") (Str "abcdef1234") (Str "0fedcba98765") true);
    [reflexivity | reflexivity | discriminate | reflexivity | reflexivity
    | discriminate | reflexivity].
Defined.

(** X15.  When [get_tag] returns a non-empty tag, [get_head_sha] equals
    [get_tag_commit_sha] of that tag and the tree is clean, [get_version]
    returns the very value [get_tag] returned, whatever the template and the
    starting version: the tag as a [str] on Python 2, a [bytes] object on
    Python 3. *)
Theorem head_at_tag_gives_tag (py : python) (template starting_version : string)
    (sh : shell) (st : state) (tag commit : text) :
  fst (get_tag py sh st) = Ok tag ->
  text_len tag <> 0 ->
  fst (get_head_sha py sh st) = Ok commit ->
  fst (get_tag_commit_sha py tag sh st) = Ok commit ->
  fst (is_dirty py sh st) = Ok false ->
  fst (get_version py template starting_version sh st) = Ok tag.
Proof.
  rewrite get_tag_run, get_head_sha_run, is_dirty_run; cbn [fst].
  intros Htag%Ok_inj Hne Hhead%Ok_inj; subst tag commit.
  rewrite get_tag_commit_sha_run; cbn [fst].
  intros Hcommit%Ok_inj%process_output_inj Hclean%Ok_inj.
  rewrite text_len_output in Hne.
  rewrite get_version_value; unfold undecorated, found_at_tag, rev_list_command.
  rewrite length_nonzero by (intros H; rewrite H in Hne; now apply Hne).
  rewrite <- Hcommit, String.eqb_refl, Hclean; reflexivity.
Qed.

Lemma head_at_tag_gives_tag_witness :
  fst (get_version Python2 "{tag}.dev{sha}" "0.1.0" (git (released "")) fresh)
  = Ok (Str "v1.2.0").
Proof.
  apply (head_at_tag_gives_tag Python2 _ _ _ _ (Str "v1.2.0") (Str "abcdef1234"));
    [reflexivity | discriminate | reflexivity | reflexivity | reflexivity].
Defined.
